(** * test-newsapi-mcp MCP server ([server.py])

    A shallow embedding of the one tool the server exposes
    ([search_everything]), of the module-level configuration, of
    [create_app_with_middleware] and of the [/health] route, followed by the
    properties of the specification that concern them.

    Python dictionaries whose order plays no role (the query parameters, the
    request headers, the keyword arguments of a call, [os.environ]) are finite
    maps; JSON objects keep their insertion order.  Effects (the outbound HTTP
    call, logging, the clock, raising) are threaded through a small state and
    exception monad. *)

From Stdlib Require Import Ascii String ZArith.
From stdpp Require Import gmap strings list fin_maps pretty.

#[global] Set Warnings "-register-all".

(** ** Python values *)

Module Py.

(** The values a tool parameter can hold: [None], a [str] or an [int]. *)
Inductive pyval : Type :=
| PNone
| PStr (s : string)
| PInt (n : Z).

#[global] Instance pyval_eq_dec : EqDecision pyval.
Proof. solve_decision. Defined.

(** Decoded JSON, as [response.json()] returns it and as a tool returns it
    to the framework.  Objects are Python dicts: insertion ordered. *)
Inductive json : Type :=
| JNull
| JBool (b : bool)
| JInt (n : Z)
| JFloat (literal : string)
| JStr (s : string)
| JArr (items : list json)
| JObj (fields : list (string * json)).

Definition keys (d : list (string * json)) : list string := d.*1.

(** Exceptions derived from [Exception]: the class and [str(e)]. *)
Record exn : Type := Exn { exc_class : string; exc_msg : string }.

Definition str (e : exn) : string := exc_msg e.

Definition ValueError (msg : string) : exn := Exn "ValueError" msg.

(** Truth value of an [Optional[str]]: [None] and the empty string are
    false. *)
Definition truthy (o : option string) : bool :=
  match o with
  | Some (String _ _) => true
  | _ => false
  end.

(** [a or b] on two [Optional[str]] values. *)
Definition or_else (a b : option string) : option string :=
  if truthy a then a else b.

Definition lower_ascii (a : ascii) : ascii :=
  let n := nat_of_ascii a in
  if ((65 <=? n) && (n <=? 90))%nat then ascii_of_nat (n + 32) else a.

Definition upper_ascii (a : ascii) : ascii :=
  let n := nat_of_ascii a in
  if ((97 <=? n) && (n <=? 122))%nat then ascii_of_nat (n - 32) else a.

Fixpoint map_string (f : ascii → ascii) (s : string) : string :=
  match s with
  | EmptyString => EmptyString
  | String a s' => String (f a) (map_string f s')
  end.

(** [str.lower()] and [str.upper()] on ASCII text; bytes outside ASCII are
    left as they are, where Python applies the Unicode case mapping. *)
Definition lower (s : string) : string := map_string lower_ascii s.
Definition upper (s : string) : string := map_string upper_ascii s.

End Py.
Import Py.

(** ** Data of the HTTP client, the payment decorator and the framework *)

(** One call of [requests.get]: what the collaborator is asked to send. *)
Record Request : Type := mkRequest {
  req_method : string;
  req_url : string;
  req_params : gmap string pyval;
  req_headers : gmap string string;
  req_timeout : Z
}.

(** The [requests.Response] object, by what the code reads of it. *)
Record Response : Type := mkResponse {
  status_code : Z;
  reason : string;
  resp_url : string;
  decoded : exn + json    (* [response.json()]: the decoding error or the value *)
}.

(** What the network does with one outbound call. *)
Inductive http_outcome : Type :=
| ConnectionFailed (msg : string)
| TimedOut (msg : string)
| Replied (r : Response).

Definition ConnectionError (msg : string) : exn :=
  Exn "requests.exceptions.ConnectionError" msg.
Definition Timeout (msg : string) : exn :=
  Exn "requests.exceptions.Timeout" msg.
Definition HTTPError (msg : string) : exn :=
  Exn "requests.exceptions.HTTPError" msg.

(** [traia_iatp.d402.types] *)
Record EIP712Domain : Type := mkEIP712Domain {
  eip_name : string;
  eip_version : string
}.

Record TokenAsset : Type := mkTokenAsset {
  address : string;
  decimals : Z;
  network : string;
  eip712 : EIP712Domain
}.

Record TokenAmount : Type := mkTokenAmount {
  amount : string;
  asset : TokenAsset
}.

(** A tool as [@mcp.tool()] over [@require_payment_for_tool(...)] registers
    it. *)
Record Tool : Type := mkTool {
  tool_name : string;
  tool_price : TokenAmount;
  tool_description : string
}.

Record FastMCP : Type := mkFastMCP {
  mcp_name : string;
  mcp_host : string;
  mcp_tools : list Tool
}.

(** The MCP context of a call; [get_active_api_key] reads the key of the
    request out of it. *)
Record Context : Type := mkContext {
  request_state : gmap string string
}.

(** The Starlette application object: its middleware stack and its routes. *)
Record CORSConfig : Type := mkCORS {
  allow_origins : list string;
  allow_credentials : bool;
  allow_methods : list string;
  allow_headers : list string
}.

Record PaymentConfig : Type := mkPaymentConfig {
  required_price : TokenAmount;
  pay_to : string
}.

Record D402Config : Type := mkD402 {
  tool_payment_configs : gmap string PaymentConfig;
  server_address : string;
  requires_auth : bool;
  internal_api_key : option string;
  d402_testing_mode : bool;
  d402_facilitator_url : option string;
  facilitator_api_key : option string;
  server_name : string
}.

Inductive Middleware : Type :=
| CORSMiddleware (c : CORSConfig)
| D402PaymentMiddleware (c : D402Config).

Inductive Endpoint : Type :=
| mcp_endpoint
| health_check_endpoint.

Record Route : Type := mkRoute {
  route_path : string;
  route_methods : list string;
  route_endpoint : Endpoint
}.

Record App : Type := mkApp {
  user_middleware : list Middleware;   (* outermost first *)
  routes : list Route
}.

(** ** The world the server runs in *)

(** What the server does not decide: the process environment, the built-in
    [int], the library helper that yields the key of the current request, the
    network, the clock and the payment verifier. *)
Record Env : Type := mkEnv {
  environ : gmap string string;          (* [os.environ] after [load_dotenv()] *)
  int_of_str : string → option Z;        (* [int(s)]; [None] is [ValueError] *)
  active_api_key : Context → option string;
  upstream : list Request → Request → http_outcome;
  now_isoformat : nat → string;          (* [datetime.now().isoformat()] *)
  verify_payment : string → PaymentConfig → bool
}.

(** What the server changes as it runs. *)
Record St : Type := mkSt {
  outbound : list Request;               (* calls of [requests.get], oldest first *)
  logged : list (string * string);       (* level and message, oldest first *)
  mcp : option FastMCP;                  (* the module-level [mcp] once created *)
  serving : option (App * Z);            (* the app and port given to uvicorn *)
  clock_reads : nat
}.

Definition st0 : St := mkSt [] [] None None 0.

(** The elementary changes of the state: a call handed to [requests.get], a
    message logged, the server object bound to [mcp], the application given to
    uvicorn, the clock read. *)
Definition sent (st : St) (req : Request) : St :=
  mkSt (outbound st ++ [req]) (logged st) (mcp st) (serving st) (clock_reads st).

Definition noted (st : St) (level msg : string) : St :=
  mkSt (outbound st) (logged st ++ [(level, msg)]) (mcp st) (serving st)
       (clock_reads st).

Definition with_mcp (st : St) (srv : FastMCP) : St :=
  mkSt (outbound st) (logged st) (Some srv) (serving st) (clock_reads st).

Definition with_serving (st : St) (app : App) (port : Z) : St :=
  mkSt (outbound st) (logged st) (mcp st) (Some (app, port)) (clock_reads st).

Definition ticked (st : St) : St :=
  mkSt (outbound st) (logged st) (mcp st) (serving st) (S (clock_reads st)).

(** ** State and exception monad *)

Inductive outcome (A : Type) : Type :=
| Ok (a : A)
| Raise (e : exn).
Arguments Ok {A} a.
Arguments Raise {A} e.

Definition M (A : Type) : Type := Env → St → outcome A * St.

#[global] Instance M_ret : MRet M := λ A a _ st, (Ok a, st).

#[global] Instance M_bind : MBind M := λ A B f m env st,
  match m env st with
  | (Ok a, st') => f a env st'
  | (Raise e, st') => (Raise e, st')
  end.

Definition raise {A} (e : exn) : M A := λ _ st, (Raise e, st).

(** [try: body except Exception as e: handler e] *)
Definition try_except {A} (body : M A) (handler : exn → M A) : M A :=
  λ env st,
    match body env st with
    | (Ok a, st') => (Ok a, st')
    | (Raise e, st') => handler e env st'
    end.

Definition ask : M Env := λ env st, (Ok env, st).
Definition get : M St := λ _ st, (Ok st, st).
Definition modify (f : St → St) : M unit := λ _ st, (Ok tt, f st).

Definition result {A} (r : outcome A * St) : outcome A := r.1.
Definition final {A} (r : outcome A * St) : St := r.2.

(** ** Primitive effects *)

Definition logger (level msg : string) : M unit :=
  modify (λ st, noted st level msg).

Definition logger_info := logger "INFO".
Definition logger_warning := logger "WARNING".
Definition logger_error := logger "ERROR".

(** [os.getenv(name)] and [os.getenv(name, default)] *)
Definition getenv (name : string) : M (option string) :=
  env ← ask; mret (environ env !! name).

Definition getenv_default (name dflt : string) : M string :=
  env ← ask; mret (default dflt (environ env !! name)).

(** [int(s)]: the integer, or [ValueError].  The text of the error is
    CPython's up to the way the literal is quoted ([repr] there); nothing
    below depends on it. *)
Definition py_int (s : string) : M Z :=
  env ← ask;
  match int_of_str env s with
  | Some n => mret n
  | None =>
      raise (ValueError ("invalid literal for int() with base 10: '" +:+ s +:+ "'"))
  end.

(** [get_active_api_key(context)] of [traia_iatp.d402.mcp_middleware]: the key
    of the current request, or [None]. *)
Definition get_active_api_key (context : Context) : M (option string) :=
  env ← ask; mret (active_api_key env context).

(** [requests.get(url, params=..., headers=..., timeout=...)]: the call is
    recorded, then the network decides. *)
Definition requests_get (url : string) (params : gmap string pyval)
    (headers : gmap string string) (timeout : Z) : M Response :=
  env ← ask;
  st ← get;
  let req := mkRequest "GET" url params headers timeout in
  modify (λ st, sent st req);;
  match upstream env (outbound st) req with
  | ConnectionFailed msg => raise (ConnectionError msg)
  | TimedOut msg => raise (Timeout msg)
  | Replied r => mret r
  end.

(** [Response.raise_for_status()] of the [requests] library: [HTTPError] on a
    4xx or 5xx status, nothing otherwise. *)
Definition raise_for_status (r : Response) : M unit :=
  let code := status_code r in
  if ((400 <=? code) && (code <? 500))%Z then
    raise (HTTPError (pretty code +:+ " Client Error: " +:+ reason r
                        +:+ " for url: " +:+ resp_url r))
  else if ((500 <=? code) && (code <? 600))%Z then
    raise (HTTPError (pretty code +:+ " Server Error: " +:+ reason r
                        +:+ " for url: " +:+ resp_url r))
  else mret tt.

(** [Response.ok] of the [requests] library: whether [raise_for_status]
    passes. *)
Definition ok (r : Response) : bool :=
  negb ((400 <=? status_code r) && (status_code r <? 600))%Z.

(** [Response.json()] *)
Definition response_json (r : Response) : M json :=
  match decoded r with
  | inl e => raise e
  | inr v => mret v
  end.

(** [datetime.now().isoformat()] *)
Definition datetime_now_isoformat : M string :=
  env ← ask;
  st ← get;
  modify ticked;;
  mret (now_isoformat env (clock_reads st)).

(** ** The tool: [search_everything] *)

(** Binding of a keyword argument: the value passed, or the default of the
    signature when the caller omits it. *)
Definition arg (kwargs : gmap string pyval) (name : string) (dflt : pyval) : pyval :=
  default dflt (kwargs !! name).

(** The dict literal bound to [params]. *)
Definition search_everything_params
    (q qInTitle sources domains excludeDomains from_ to language sortBy
       searchIn pageSize page : pyval) : gmap string pyval :=
  list_to_map
    [ ("q", q);
      ("qInTitle", qInTitle);
      ("sources", sources);
      ("domains", domains);
      ("excludeDomains", excludeDomains);
      ("from", from_);
      ("to", to);
      ("language", language);
      ("sortBy", sortBy);
      ("searchIn", searchIn);
      ("pageSize", pageSize);
      ("page", page) ].

(** [headers = {}], then the bearer credential when there is a key. *)
Definition search_everything_headers (api_key : option string) : gmap string string :=
  let headers : gmap string string := ∅ in
  if truthy api_key
  then <["Authorization" := "Bearer " +:+ default EmptyString api_key]> headers
  else headers.

(** The body of the [try:] block, on the bound parameters. *)
Definition search_everything_try (api_key : option string)
    (q qInTitle sources domains excludeDomains from_ to language sortBy
       searchIn pageSize page : pyval) : M json :=
  let url := "https://newsapi.org/v2/everything" in
  let params :=
    search_everything_params q qInTitle sources domains excludeDomains from_ to
      language sortBy searchIn pageSize page in
  let headers := search_everything_headers api_key in
  response ← requests_get url params headers 30;
  raise_for_status response;;
  response_json response.

(** The [except Exception as e:] clause. *)
Definition search_everything_except (e : exn) : M json :=
  logger_error ("Error in search_everything: " +:+ str e);;
  mret (JObj [("error", JStr (str e)); ("endpoint", JStr "/everything")]).

Definition search_everything (context : Context) (kwargs : gmap string pyval)
    : M json :=
  let q := arg kwargs "q" PNone in
  let qInTitle := arg kwargs "qInTitle" PNone in
  let sources := arg kwargs "sources" PNone in
  let domains := arg kwargs "domains" PNone in
  let excludeDomains := arg kwargs "excludeDomains" PNone in
  let from_ := arg kwargs "from_" PNone in
  let to := arg kwargs "to" PNone in
  let language := arg kwargs "language" (PStr "en") in
  let sortBy := arg kwargs "sortBy" (PStr "publishedAt") in
  let searchIn := arg kwargs "searchIn" PNone in
  let pageSize := arg kwargs "pageSize" (PInt 20) in
  let page := arg kwargs "page" (PInt 1) in
  api_key ← get_active_api_key context;
  try_except
    (search_everything_try api_key q qInTitle sources domains excludeDomains
       from_ to language sortBy searchIn pageSize page)
    search_everything_except.

(** ** Module-level code: configuration and tool registration *)

Record Config : Type := mkConfig {
  STAGE : string;
  PORT : Z;
  SERVER_ADDRESS : string;
  API_KEY : option string
}.

Fixpoint repeat_string (s : string) (n : nat) : string :=
  match n with
  | O => EmptyString
  | S n' => s +:+ repeat_string s n'
  end.

(** [needle in s] on strings *)
Fixpoint contains (needle s : string) : bool :=
  String.prefix needle s ||
  match s with
  | EmptyString => false
  | String _ s' => contains needle s'
  end.

(** [FastMCP(name, host=...)]: the server object is created and bound to the
    module-level name [mcp]. *)
Definition FastMCP_new (name host : string) : M unit :=
  modify (λ st, with_mcp st (mkFastMCP name host [])).

(** [@mcp.tool()]: the tool is added to the server object. *)
Definition mcp_tool (t : Tool) : M unit :=
  st ← get;
  match mcp st with
  | Some srv =>
      modify (λ st, with_mcp st (mkFastMCP (mcp_name srv) (mcp_host srv)
                                           (mcp_tools srv ++ [t])))
  | None => raise (Exn "NameError" "name 'mcp' is not defined")
  end.

(** The price declared by the decorator of [search_everything]. *)
Definition search_everything_price : TokenAmount :=
  {| amount := "2000";
     asset := {| address := "0x1c7D4B196Cb0C7B01d743Fbc6116a902379C7238";
                 decimals := 6;
                 network := "sepolia";
                 eip712 := {| eip_name := "IATPWallet"; eip_version := "1" |} |} |}.

Definition search_everything_tool : Tool :=
  {| tool_name := "search_everything";
     tool_price := search_everything_price;
     tool_description := "Search through millions of articles. NewsAPI requi" |}.

(** The statements of the module, in order, from the configuration block to
    the decorated definition of the tool.  [load_dotenv()] has run: [environ]
    is the environment it leaves.  The set-up of the [logging] module, which
    comes before these statements, is [logging_basicConfig] below, and the
    import as a whole is [import_module]. *)
Definition module_init : M Config :=
  stage ← getenv_default "STAGE" "MAINNET";
  let STAGE := upper stage in
  port ← getenv_default "PORT" "8000";
  PORT ← py_int port;
  SERVER_ADDRESS ← getenv "SERVER_ADDRESS";
  if negb (truthy SERVER_ADDRESS) then
    raise (ValueError "SERVER_ADDRESS required for payment protocol")
  else
    let SERVER_ADDRESS := default EmptyString SERVER_ADDRESS in
    API_KEY ← getenv "TEST_NEWSAPI_MCP_API_KEY";
    (if negb (truthy API_KEY) then
       logger_warning
         "⚠️  TEST_NEWSAPI_MCP_API_KEY not set - payment required for all requests"
     else mret tt);;
    logger_info (repeat_string "=" 80);;
    logger_info "test-newsapi-mcp MCP Server (FastMCP + D402 Wrapper)";;
    logger_info "API: https://newsapi.org/v2";;
    logger_info ("Payment: " +:+ SERVER_ADDRESS);;
    logger_info ("API Key: " +:+
                 (if truthy API_KEY then "✅" else "❌ Payment required"));;
    logger_info (repeat_string "=" 80);;
    FastMCP_new "test-newsapi-mcp MCP Server" "0.0.0.0";;
    logger_info "✅ FastMCP server created";;
    mcp_tool search_everything_tool;;
    mret (mkConfig STAGE PORT SERVER_ADDRESS API_KEY).

(** ** Application set-up: [create_app_with_middleware] *)

(** [mcp.streamable_http_app()]: the framework's application, serving the MCP
    endpoint, with no middleware of the user yet. *)
Definition streamable_http_app : M App :=
  mret (mkApp [] [mkRoute "/mcp" ["GET"; "POST"; "DELETE"] mcp_endpoint]).

(** Modelled from the spec: [extract_payment_configs_from_mcp] belongs to the
    package [traia_iatp], which is not part of the repository.  Following the
    Tool Registry of the specification (a tool name is mapped to its price) and
    the comment at its call (the decorators are the single source of truth),
    it yields, for every registered tool, the price its decorator declares,
    payable to the server address. *)
Definition extract_payment_configs_from_mcp (srv : FastMCP) (server_addr : string)
    : gmap string PaymentConfig :=
  list_to_map
    ((λ t, (tool_name t, mkPaymentConfig (tool_price t) server_addr)) <$> mcp_tools srv).

(** [app.add_middleware(...)]: Starlette puts the new middleware in front of
    the ones added before. *)
Definition add_middleware (m : Middleware) (app : App) : App :=
  mkApp (m :: user_middleware app) (routes app).

(** [@app.route(path, methods=...)]: the route is recorded with the methods
    the code asks for (Starlette itself also answers HEAD where GET is asked
    for). *)
Definition add_route (path : string) (methods : list string) (e : Endpoint)
    (app : App) : App :=
  mkApp (user_middleware app) (routes app ++ [mkRoute path methods e]).

Definition create_app_with_middleware (cfg : Config) : M App :=
  logger_info "🔧 Creating FastMCP app with middleware...";;
  app ← streamable_http_app;
  logger_info "✅ Got FastMCP Starlette app";;
  st ← get;
  match mcp st with
  | None => raise (Exn "NameError" "name 'mcp' is not defined")
  | Some srv =>
  let tool_payment_configs := extract_payment_configs_from_mcp srv (SERVER_ADDRESS cfg) in
  logger_info ("📊 Extracted " +:+ pretty (size tool_payment_configs) +:+
               " payment configs from @require_payment_for_tool decorators");;
  f1 ← getenv "FACILITATOR_URL";
  f2 ← getenv "D402_FACILITATOR_URL";
  let facilitator_url := or_else f1 f2 in
  operator_key ← getenv "MCP_OPERATOR_PRIVATE_KEY";
  network ← getenv_default "NETWORK" "sepolia";
  tm ← getenv_default "D402_TESTING_MODE" "false";
  let testing_mode := bool_decide (lower tm = "true") in
  logger_info (repeat_string "=" 60);;
  logger_info "D402 Payment Protocol Configuration:";;
  logger_info ("  Server Address: " +:+ SERVER_ADDRESS cfg);;
  logger_info ("  Network: " +:+ network);;
  logger_info ("  Operator Key: " +:+
               (if truthy operator_key then "✅ Set" else "❌ Not set"));;
  logger_info ("  Testing Mode: " +:+
               (if testing_mode then "⚠️  ENABLED (bypasses facilitator)"
                else "✅ DISABLED (uses facilitator)"));;
  logger_info (repeat_string "=" 60);;
  if negb (truthy facilitator_url) && negb testing_mode then
    logger_error "❌ FACILITATOR_URL required when testing_mode is disabled!";;
    raise (ValueError "Set FACILITATOR_URL or enable D402_TESTING_MODE=true")
  else
    (if truthy facilitator_url then
       let u := default EmptyString facilitator_url in
       logger_info ("🌐 FACILITATOR: " +:+ u);;
       if contains "localhost" u || contains "127.0.0.1" u
          || contains "host.docker.internal" u
       then logger_info "   📍 Using LOCAL facilitator for development"
       else logger_info "   🌍 Using REMOTE facilitator for production"
     else logger_warning "⚠️  D402 Testing Mode - Facilitator bypassed");;
    logger_info (repeat_string "=" 60);;
    let app :=
      add_middleware (CORSMiddleware (mkCORS ["*"] true ["*"] ["*"])) app in
    logger_info "✅ Added CORS middleware (allow all origins)";;
    fkey ← getenv "D402_FACILITATOR_API_KEY";
    let app :=
      add_middleware
        (D402PaymentMiddleware
           {| tool_payment_configs := tool_payment_configs;
              server_address := SERVER_ADDRESS cfg;
              requires_auth := true;
              internal_api_key := API_KEY cfg;
              d402_testing_mode := testing_mode;
              d402_facilitator_url := facilitator_url;
              facilitator_api_key := fkey;
              server_name := "test-newsapi-mcp-mcp-server" |}) app in
    logger_info "✅ Added D402PaymentMiddleware";;
    logger_info "   - Auth extraction: Enabled";;
    logger_info "   - Dual mode: API key OR payment";;
    let app := add_route "/health" ["GET"] health_check_endpoint app in
    logger_info "✅ Added /health endpoint";;
    mret app
  end.

(** ** Inbound requests, the [/health] route and the entry point *)

(** An inbound HTTP request, by what the gateway reads of it: the route, the
    credential and payment proof of the caller, and the tool call carried in
    the body. *)
Record HttpRequest : Type := mkHttpRequest {
  http_method : string;
  http_path : string;
  caller_api_key : option string;
  payment_proof : option string;
  call_tool : string;
  call_arguments : gmap string pyval;
  call_context : Context
}.

(** [starlette.responses.JSONResponse(content=...)]; the status is 200 unless
    given. *)
Record JSONResponse : Type := mkJSONResponse {
  response_status : Z;
  content : json
}.

Definition health_check (request : HttpRequest) : M JSONResponse :=
  timestamp ← datetime_now_isoformat;
  mret (mkJSONResponse 200
          (JObj [ ("status", JStr "healthy");
                  ("service", JStr "test-newsapi-mcp-mcp-server");
                  ("timestamp", JStr timestamp) ])).

(** [uvicorn.run(app, host=..., port=..., log_level=...)]: the application
    and the port are handed to uvicorn.  What uvicorn does with them (binding
    the port, serving until it is shut down) is outside the model. *)
Definition uvicorn_run (app : App) (port : Z) : M unit :=
  modify (λ st, with_serving st app port).

(** The body of [if __name__ == "__main__":]. *)
Definition main (cfg : Config) : M unit :=
  logger_info (repeat_string "=" 80);;
  logger_info "Starting test-newsapi-mcp MCP Server";;
  logger_info (repeat_string "=" 80);;
  logger_info "Architecture:";;
  logger_info "  1. D402PaymentMiddleware intercepts requests";;
  logger_info "     - Extracts API keys from Authorization header";;
  logger_info "     - Checks payment → HTTP 402 if no API key AND no payment";;
  logger_info "  2. FastMCP processes valid requests with tool decorators";;
  logger_info (repeat_string "=" 80);;
  app ← create_app_with_middleware cfg;
  uvicorn_run app (PORT cfg).

(** Running the file as a script: the module-level code, then [main]. *)
Definition script : M unit :=
  cfg ← module_init;
  main cfg.

(** ** The import as a whole *)

Section ModuleImport.

(** What [logging.basicConfig(level=v.upper(), ...)] raises, if anything, for
    the value [v] of [LOG_LEVEL]: the [logging] module refuses the name of a
    level it does not know. *)
Variable basicConfig_error : string → option exn.

(** [logging.basicConfig(level=os.getenv("LOG_LEVEL", "INFO").upper(), ...)] *)
Definition logging_basicConfig : M unit :=
  level ← getenv_default "LOG_LEVEL" "INFO";
  match basicConfig_error level with
  | Some e => raise e
  | None => mret tt
  end.

(** Importing the module: the set-up of logging, then the configuration
    block and what follows it. *)
Definition import_module : M Config :=
  logging_basicConfig;;
  module_init.

(** Running the file: the import, then the body of the [__main__] block. *)
Definition run_file : M unit :=
  cfg ← import_module;
  main cfg.

End ModuleImport.

(** ** The gateway in front of the tool *)

Inductive AdmitReason : Type :=
| by_api_key
| by_verified_payment.

Inductive PaymentDecision : Type :=
| Granted (why : AdmitReason)   (* the decision the specification calls admitted *)
| Rejected (required : PaymentConfig).

(** Modelled from the spec: the Payment Gate ([D402PaymentMiddleware] of the
    package [traia_iatp]) is not part of the repository.  As the specification
    describes it: a call carrying the server's own key is admitted; else a
    call carrying a payment proof is admitted when the external verifier
    accepts the proof for the price of the tool; else the call is rejected
    with the price the tool declares. *)
Definition evaluate (cfg : D402Config) (price : PaymentConfig) (call : HttpRequest)
    : M PaymentDecision :=
  env ← ask;
  match caller_api_key call, internal_api_key cfg with
  | Some k, Some k' =>
      if bool_decide (k = k') then mret (Granted by_api_key)
      else
        match payment_proof call with
        | Some proof =>
            if verify_payment env proof price
            then mret (Granted by_verified_payment)
            else mret (Rejected price)
        | None => mret (Rejected price)
        end
  | _, _ =>
      match payment_proof call with
      | Some proof =>
          if verify_payment env proof price
          then mret (Granted by_verified_payment)
          else mret (Rejected price)
      | None => mret (Rejected price)
      end
  end.

Inductive HttpResponse : Type :=
| PaymentRequired (required : PaymentConfig)
| ToolResult (value : json)
| RouteResult (r : JSONResponse)
| NotFound.

Definition http_status (r : HttpResponse) : Z :=
  match r with
  | PaymentRequired _ => 402
  | ToolResult _ => 200
  | RouteResult r => response_status r
  | NotFound => 404
  end.

Definition find_route (app : App) (method path : string) : option Endpoint :=
  route_endpoint <$>
    List.find (λ r, bool_decide (route_path r = path)
                    && bool_decide (method ∈ route_methods r)) (routes app).

Fixpoint payment_middleware (ms : list Middleware) : option D402Config :=
  match ms with
  | [] => None
  | D402PaymentMiddleware c :: _ => Some c
  | CORSMiddleware _ :: ms' => payment_middleware ms'
  end.

(** The Dispatcher: the registered handler is invoked with the arguments of
    the call. *)
Definition dispatch (call : HttpRequest) : M HttpResponse :=
  if bool_decide (call_tool call = "search_everything") then
    r ← search_everything (call_context call) (call_arguments call);
    mret (ToolResult r)
  else mret NotFound.

(** Modelled from the spec: the composition of the gate and the routes is done
    by Starlette and by [D402PaymentMiddleware], neither part of the
    repository.  As the specification describes the Gateway Shell: the
    liveness route bypasses the Payment Gate entirely; a tool call is
    evaluated by the gate against the price of the tool, and is dispatched
    only when admitted; a rejected call is answered with the payment-required
    status and the required price. *)
Definition handle (app : App) (req : HttpRequest) : M HttpResponse :=
  match find_route app (http_method req) (http_path req) with
  | Some health_check_endpoint =>
      r ← health_check req;
      mret (RouteResult r)
  | Some mcp_endpoint =>
      match payment_middleware (user_middleware app) with
      | None => dispatch req
      | Some cfg =>
          match tool_payment_configs cfg !! call_tool req with
          | None => dispatch req
          | Some price =>
              d ← evaluate cfg price req;
              match d with
              | Granted _ => dispatch req
              | Rejected required => mret (PaymentRequired required)
              end
          end
      end
  | None => mret NotFound
  end.

(** ** Vocabulary of the properties *)

(** The error [raise_for_status] raises on a response that is not [ok]. *)
Definition http_error_of (r : Response) : exn :=
  HTTPError (pretty (status_code r)
             +:+ (if (status_code r <? 500)%Z then " Client Error: " else " Server Error: ")
             +:+ reason r +:+ " for url: " +:+ resp_url r).

(** The request [search_everything] hands to [requests.get]. *)
Definition request_of (env : Env) (context : Context) (kwargs : gmap string pyval)
    : Request :=
  mkRequest "GET" "https://newsapi.org/v2/everything"
    (search_everything_params
       (arg kwargs "q" PNone) (arg kwargs "qInTitle" PNone)
       (arg kwargs "sources" PNone) (arg kwargs "domains" PNone)
       (arg kwargs "excludeDomains" PNone) (arg kwargs "from_" PNone)
       (arg kwargs "to" PNone) (arg kwargs "language" (PStr "en"))
       (arg kwargs "sortBy" (PStr "publishedAt")) (arg kwargs "searchIn" PNone)
       (arg kwargs "pageSize" (PInt 20)) (arg kwargs "page" (PInt 1)))
    (search_everything_headers (active_api_key env context)) 30.

(** The [try:] block of a call, once the parameters are bound. *)
Definition try_of (env : Env) (context : Context) (kwargs : gmap string pyval)
    : M json :=
  search_everything_try (active_api_key env context)
    (arg kwargs "q" PNone) (arg kwargs "qInTitle" PNone)
    (arg kwargs "sources" PNone) (arg kwargs "domains" PNone)
    (arg kwargs "excludeDomains" PNone) (arg kwargs "from_" PNone)
    (arg kwargs "to" PNone) (arg kwargs "language" (PStr "en"))
    (arg kwargs "sortBy" (PStr "publishedAt")) (arg kwargs "searchIn" PNone)
    (arg kwargs "pageSize" (PInt 20)) (arg kwargs "page" (PInt 1)).

(** The query keys of the upstream endpoint. *)
Definition query_keys : gset string :=
  {[ "q"; "qInTitle"; "sources"; "domains"; "excludeDomains"; "from"; "to";
     "language"; "sortBy"; "searchIn"; "pageSize"; "page" ]}.

(** The parameters sent under their own name, with their defaults. *)
Definition same_name_parameters : list (string * pyval) :=
  [ ("q", PNone); ("qInTitle", PNone); ("sources", PNone); ("domains", PNone);
    ("excludeDomains", PNone); ("to", PNone); ("language", PStr "en");
    ("sortBy", PStr "publishedAt"); ("searchIn", PNone);
    ("pageSize", PInt 20); ("page", PInt 1) ].

(** The cross-origin policy [create_app_with_middleware] installs. *)
Definition cors_allow_all : Middleware :=
  CORSMiddleware (mkCORS ["*"] true ["*"] ["*"]).

(** ** A concrete world, for running the model *)

Module Demo.

Definition digit_value (a : ascii) : option Z :=
  let n := nat_of_ascii a in
  if ((48 <=? n) && (n <=? 57))%nat then Some (Z.of_nat (n - 48)) else None.

Fixpoint decimal_from (acc : Z) (s : string) : option Z :=
  match s with
  | EmptyString => Some acc
  | String a s' =>
      match digit_value a with
      | Some d => decimal_from (10 * acc + d) s'
      | None => None
      end
  end.

(** [int] on unsigned ASCII decimal literals. *)
Definition decimal (s : string) : option Z :=
  match s with
  | EmptyString => None
  | _ => decimal_from 0 s
  end.

Definition articles : json :=
  JObj [ ("status", JStr "ok"); ("totalResults", JInt 0); ("articles", JArr []) ].

Definition everything_url : string := "https://newsapi.org/v2/everything".

(** A world in which [net] is what the network does with every call. *)
Definition world (vars : gmap string string) (net : http_outcome) : Env :=
  {| environ := vars;
     int_of_str := decimal;
     active_api_key := λ ctx, request_state ctx !! "api_key";
     upstream := λ _ _, net;
     now_isoformat := λ _, "2026-01-01T00:00:00";
     verify_payment := λ _ _, false |}.

Definition vars_testing : gmap string string :=
  {[ "SERVER_ADDRESS" := "0xA11CE"; "D402_TESTING_MODE" := "true" ]}.


Definition replies (code : Z) (why : string) (body : exn + json) : http_outcome :=
  Replied (mkResponse code why everything_url body).

Definition success : http_outcome := replies 200 "OK" (inr articles).

Definition not_json : exn :=
  Exn "requests.exceptions.JSONDecodeError"
      "Expecting value: line 1 column 1 (char 0)".

Definition no_key : Context := mkContext ∅.
Definition with_key : Context := mkContext {[ "api_key" := "secret" ]}.


(** The level check of [logging], on ASCII names. *)
Definition level_error (v : string) : option exn :=
  if bool_decide (upper v ∈ ["CRITICAL"; "FATAL"; "ERROR"; "WARN"; "WARNING";
                             "INFO"; "DEBUG"; "NOTSET"])
  then None
  else Some (ValueError ("Unknown level: '" +:+ upper v +:+ "'")).

Definition anonymous_health : HttpRequest :=
  mkHttpRequest "GET" "/health" None None EmptyString ∅ no_key.

Definition testing : Env := world vars_testing success.
Definition unconfigured : Env := world ∅ success.

Definition cfg0 : Config := mkConfig "MAINNET" 8000 "0xA11CE" None.

(** The state once the module-level code has run, and the application
    [create_app_with_middleware] then builds. *)
Definition initialised (env : Env) : St := final (module_init env st0).

Definition built (env : Env) : outcome App * St :=
  create_app_with_middleware cfg0 env (initialised env).

Definition app_of (env : Env) : App :=
  match result (built env) with
  | Ok app => app
  | Raise _ => mkApp [] []
  end.

End Demo.

(** ** Running the monad *)

Section Run.
Context {A B : Type}.

Lemma run_bind_ok (m : M A) (f : A → M B) env st a st' :
  m env st = (Ok a, st') → (m ≫= f) env st = f a env st'.
Proof. intros H. unfold mbind, M_bind. by rewrite H. Qed.

Lemma run_bind_raise (m : M A) (f : A → M B) env st e st' :
  m env st = (Raise e, st') → (m ≫= f) env st = (Raise e, st').
Proof. intros H. unfold mbind, M_bind. by rewrite H. Qed.

Lemma run_try_ok (body : M A) handler env st a st' :
  body env st = (Ok a, st') → try_except body handler env st = (Ok a, st').
Proof. intros H. unfold try_except. by rewrite H. Qed.

Lemma run_try_raise (body : M A) handler env st e st' :
  body env st = (Raise e, st') →
  try_except body handler env st = handler e env st'.
Proof. intros H. unfold try_except. by rewrite H. Qed.
End Run.

Lemma run_logger level msg env st : logger level msg env st = (Ok tt, noted st level msg).
Proof. reflexivity. Qed.

Lemma run_requests_get url p h t env st :
  requests_get url p h t env st =
  let req := mkRequest "GET" url p h t in
  (match upstream env (outbound st) req with
   | ConnectionFailed msg => Raise (ConnectionError msg)
   | TimedOut msg => Raise (Timeout msg)
   | Replied r => Ok r
   end, sent st req).
Proof.
  unfold requests_get, mbind, M_bind, ask, get, modify, raise, mret, M_ret.
  by destruct (upstream env (outbound st) _).
Qed.

Lemma run_raise_for_status r env st :
  raise_for_status r env st =
  (if ok r then Ok tt else Raise (http_error_of r), st).
Proof.
  unfold ok, raise_for_status, http_error_of.
  destruct (400 <=? status_code r)%Z eqn:E1, (status_code r <? 500)%Z eqn:E2,
    (500 <=? status_code r)%Z eqn:E3, (status_code r <? 600)%Z eqn:E4;
    simpl; try done; lia.
Qed.

(** ** The tool *)

Lemma run_search_everything_except e env st :
  search_everything_except e env st =
  (Ok (JObj [("error", JStr (str e)); ("endpoint", JStr "/everything")]),
   noted st "ERROR" ("Error in search_everything: " +:+ str e)).
Proof. reflexivity. Qed.

Lemma search_everything_unfold env st context kwargs :
  search_everything context kwargs env st =
  try_except (try_of env context kwargs) search_everything_except env st.
Proof. reflexivity. Qed.

(** The [try:] block sends exactly one request, whatever comes of it. *)
Lemma try_of_run env st context kwargs :
  try_of env context kwargs env st =
  (match upstream env (outbound st) (request_of env context kwargs) with
   | ConnectionFailed msg => Raise (ConnectionError msg)
   | TimedOut msg => Raise (Timeout msg)
   | Replied r =>
       if ok r then match decoded r with inl e => Raise e | inr v => Ok v end
       else Raise (http_error_of r)
   end, sent st (request_of env context kwargs)).
Proof.
  unfold try_of, search_everything_try.
  unfold mbind at 1. unfold M_bind. rewrite run_requests_get. cbv zeta.
  change (mkRequest _ _ _ _ _) with (request_of env context kwargs).
  destruct (upstream env (outbound st) _) as [msg|msg|r]; try done.
  unfold mbind, M_bind. rewrite run_raise_for_status.
  destruct (ok r); [|done].
  unfold response_json. by destruct (decoded r).
Qed.

Lemma search_everything_outbound env st context kwargs :
  outbound (final (search_everything context kwargs env st)) =
  outbound st ++ [request_of env context kwargs].
Proof.
  rewrite search_everything_unfold. unfold try_except.
  rewrite try_of_run. cbv zeta.
  destruct (upstream _ _ _) as [?|?|r]; try done.
  by destruct (ok r); [destruct (decoded r)|].
Qed.

Lemma search_everything_total env st context kwargs :
  ∃ v, result (search_everything context kwargs env st) = Ok v.
Proof.
  rewrite search_everything_unfold. unfold try_except.
  rewrite try_of_run. cbv zeta.
  destruct (upstream _ _ _) as [?|?|r]; simpl; eauto.
  destruct (ok r); [destruct (decoded r)|]; simpl; eauto.
Qed.

Lemma search_everything_params_dom q qt s d x f t l sb si ps p :
  dom (search_everything_params q qt s d x f t l sb si ps p) = query_keys.
Proof. vm_compute. reflexivity. Qed.

Lemma search_everything_params_lookup q qt s d x f t l sb si ps p :
  let m := search_everything_params q qt s d x f t l sb si ps p in
  m !! "q" = Some q ∧ m !! "qInTitle" = Some qt ∧ m !! "sources" = Some s ∧
  m !! "domains" = Some d ∧ m !! "excludeDomains" = Some x ∧
  m !! "from" = Some f ∧ m !! "to" = Some t ∧ m !! "language" = Some l ∧
  m !! "sortBy" = Some sb ∧ m !! "searchIn" = Some si ∧
  m !! "pageSize" = Some ps ∧ m !! "page" = Some p ∧ m !! "from_" = None.
Proof. vm_compute. repeat split. Qed.

(** C9.  The request [search_everything] builds carries [from_] under the
    query key ["from"] (and no key ["from_"]); each of the other eleven
    parameters is carried under its own name, with the value passed or, when
    omitted, its default ([None] where the signature says so); the mapping has
    exactly the twelve query keys. *)
Theorem C9_from_renamed_twelve_keys env st context (kwargs : gmap string pyval) :
  ∃ req,
    outbound (final (search_everything context kwargs env st)) = outbound st ++ [req] ∧
    req_params req !! "from" = Some (default PNone (kwargs !! "from_")) ∧
    req_params req !! "from_" = None ∧
    Forall (λ '(name, dflt),
              req_params req !! name = Some (default dflt (kwargs !! name)))
           same_name_parameters ∧
    dom (req_params req) = query_keys ∧
    size query_keys = 12%nat.
Proof.
  exists (request_of env context kwargs).
  split; [apply search_everything_outbound|].
  unfold request_of; cbn [req_params].
  match goal with |- context [search_everything_params ?q ?qt ?s ?d ?x ?f ?t ?l ?sb ?si ?ps ?p] =>
    destruct (search_everything_params_lookup q qt s d x f t l sb si ps p)
      as (?&?&?&?&?&?&?&?&?&?&?&?&?)
  end.
  split_and!; try done.
  unfold same_name_parameters. repeat constructor; done.
Qed.

Lemma search_everything_result env st context kwargs :
  result (search_everything context kwargs env st) =
  match result (try_of env context kwargs env st) with
  | Ok v => Ok v
  | Raise e => Ok (JObj [("error", JStr (str e)); ("endpoint", JStr "/everything")])
  end.
Proof.
  rewrite search_everything_unfold. unfold try_except.
  by destruct (try_of env context kwargs env st) as [[v|e] st'].
Qed.

(** C4.  One invocation of [search_everything] performs exactly one outbound
    call, whatever the network answers (no retry); a second, identical
    invocation performs its own call (no cache, no deduplication), so the
    record of outbound calls grows by the same request twice. *)
Theorem C4_one_outbound_call_per_invocation env st context kwargs :
  let first := search_everything context kwargs env st in
  let second := search_everything context kwargs env (final first) in
  ∃ req,
    outbound (final first) = outbound st ++ [req] ∧
    outbound (final second) = outbound st ++ [req; req] ∧
    length (outbound (final first)) = S (length (outbound st)) ∧
    length (outbound (final second)) = S (S (length (outbound st))).
Proof.
  intros first second. exists (request_of env context kwargs).
  assert (H1 : outbound (final first) = outbound st ++ [request_of env context kwargs])
    by apply search_everything_outbound.
  assert (H2 : outbound (final second) =
               outbound st ++ [request_of env context kwargs; request_of env context kwargs]).
  { unfold second. rewrite search_everything_outbound, H1, <- app_assoc. done. }
  rewrite H1, H2, !length_app. simpl. split_and!; try done; lia.
Qed.

(** C10.  Whenever the [try:] block of [search_everything] raises an
    exception [e], the function returns the dictionary with exactly the keys
    ["error"], holding [str(e)], and ["endpoint"], holding ["/everything"];
    this includes a successful HTTP response whose body does not decode as
    JSON. *)
Theorem C10_exception_returns_error_dict env st context kwargs :
  (∀ e, result (try_of env context kwargs env st) = Raise e →
        result (search_everything context kwargs env st) =
          Ok (JObj [("error", JStr (str e)); ("endpoint", JStr "/everything")]) ∧
        keys [("error", JStr (str e)); ("endpoint", JStr "/everything")]
          = ["error"; "endpoint"]) ∧
  (∀ r e, (∀ req, upstream env (outbound st) req = Replied r) →
          ok r = true → decoded r = inl e →
          result (search_everything context kwargs env st) =
            Ok (JObj [("error", JStr (str e)); ("endpoint", JStr "/everything")])).
Proof.
  split.
  - intros e He. split; [|done]. by rewrite search_everything_result, He.
  - intros r e Hnet Hok Hdec.
    rewrite search_everything_result, try_of_run, Hnet, Hok, Hdec. done.
Qed.

(** C2, as amended.  [search_everything] always returns a value and never
    raises.  When the outbound call it makes fails in transport or times out,
    the value is the failure dictionary carrying the message; when the reply
    to it has an HTTP error status (4xx or 5xx, the statuses on which
    [raise_for_status] raises), it is the failure dictionary carrying the
    message of the [HTTPError]. *)
Theorem C2_failures_returned_as_data env st context kwargs :
  let run := search_everything context kwargs env st in
  ∃ req,
    outbound (final run) = outbound st ++ [req] ∧
    (∃ v, result run = Ok v) ∧
    (∀ msg, upstream env (outbound st) req = ConnectionFailed msg →
            result run =
              Ok (JObj [("error", JStr msg); ("endpoint", JStr "/everything")])) ∧
    (∀ msg, upstream env (outbound st) req = TimedOut msg →
            result run =
              Ok (JObj [("error", JStr msg); ("endpoint", JStr "/everything")])) ∧
    (∀ r, upstream env (outbound st) req = Replied r →
          (400 ≤ status_code r < 600)%Z →
          result run =
            Ok (JObj [("error", JStr (str (http_error_of r)));
                      ("endpoint", JStr "/everything")])).
Proof.
  intros run. exists (request_of env context kwargs). unfold run.
  split; [apply search_everything_outbound|].
  split; [apply search_everything_total|].
  rewrite search_everything_result, try_of_run.
  split_and!.
  - by intros msg ->.
  - by intros msg ->.
  - intros r -> Hcode.
    assert (Hok : ok r = false).
    { unfold ok. apply negb_false_iff, andb_true_iff.
      split; [apply Z.leb_le|apply Z.ltb_lt]; lia. }
    by rewrite Hok.
Qed.

(** C3.  The call [search_everything(q="ai")] produces exactly one outbound GET
    request to the upstream endpoint whose query parameters hold [q=ai] and the
    defaults [language=en], [pageSize=20], [page=1]; the active key, when there
    is one, is sent as the bearer credential; and when the upstream replies
    with success, the decoded JSON body is returned unchanged. *)
Theorem C3_search_ai_defaults_passthrough env st context :
  let run := search_everything context {[ "q" := PStr "ai" ]} env st in
  ∃ req,
    outbound (final run) = outbound st ++ [req] ∧
    req_method req = "GET" ∧
    req_url req = "https://newsapi.org/v2/everything" ∧
    req_params req !! "q" = Some (PStr "ai") ∧
    req_params req !! "language" = Some (PStr "en") ∧
    req_params req !! "pageSize" = Some (PInt 20) ∧
    req_params req !! "page" = Some (PInt 1) ∧
    (∀ key, active_api_key env context = Some key → key ≠ EmptyString →
            req_headers req !! "Authorization" = Some ("Bearer " +:+ key)) ∧
    (∀ r v, upstream env (outbound st) req = Replied r →
            ok r = true → decoded r = inr v → result run = Ok v).
Proof.
  intros run. exists (request_of env context {[ "q" := PStr "ai" ]}).
  split; [apply search_everything_outbound|].
  split_and!; try done.
  - intros key Hkey Hne. unfold request_of; cbn [req_headers].
    unfold search_everything_headers. rewrite Hkey.
    destruct key; [done|]. simpl. by rewrite lookup_insert_eq.
  - intros r v Hnet Hok Hdec. unfold run.
    by rewrite search_everything_result, try_of_run, Hnet, Hok, Hdec.
Qed.

(** C1, as amended.  [search_everything] declares no required parameter and
    validates none: a call that provides none of [q], [sources] and [domains]
    still issues exactly one outbound GET request, in which these three keys
    are mapped to [None]. *)
Theorem C1_no_validation_before_outbound env st context (kwargs : gmap string pyval) :
  kwargs !! "q" = None → kwargs !! "sources" = None → kwargs !! "domains" = None →
  ∃ req,
    outbound (final (search_everything context kwargs env st)) = outbound st ++ [req] ∧
    req_method req = "GET" ∧
    req_params req !! "q" = Some PNone ∧
    req_params req !! "sources" = Some PNone ∧
    req_params req !! "domains" = Some PNone.
Proof.
  intros Hq Hs Hd. exists (request_of env context kwargs).
  split; [apply search_everything_outbound|].
  unfold request_of; cbn [req_params req_method].
  match goal with |- context [search_everything_params ?q ?qt ?s ?d ?x ?f ?t ?l ?sb ?si ?ps ?p] =>
    destruct (search_everything_params_lookup q qt s d x f t l sb si ps p)
      as (?&?&?&?&?&?&?&?&?&?&?&?&?)
  end.
  unfold arg in *. rewrite Hq, Hs, Hd in *. done.
Qed.

(** ** Start-up *)

(** What the elementary changes of the state leave as it was. *)
Lemma noted_keeps st level msg :
  outbound (noted st level msg) = outbound st ∧
  mcp (noted st level msg) = mcp st ∧
  serving (noted st level msg) = serving st.
Proof. done. Qed.

Lemma with_mcp_keeps st srv :
  outbound (with_mcp st srv) = outbound st ∧
  mcp (with_mcp st srv) = Some srv ∧
  serving (with_mcp st srv) = serving st.
Proof. done. Qed.

Lemma mcp_noted st level msg : mcp (noted st level msg) = mcp st.
Proof. done. Qed.
Lemma outbound_noted st level msg : outbound (noted st level msg) = outbound st.
Proof. done. Qed.
Lemma serving_noted st level msg : serving (noted st level msg) = serving st.
Proof. done. Qed.
Lemma mcp_with_mcp st srv : mcp (with_mcp st srv) = Some srv.
Proof. done. Qed.
Lemma outbound_with_mcp st srv : outbound (with_mcp st srv) = outbound st.
Proof. done. Qed.
Lemma serving_with_mcp st srv : serving (with_mcp st srv) = serving st.
Proof. done. Qed.

Create Rewrite HintDb state.
#[local] Hint Rewrite mcp_noted outbound_noted serving_noted mcp_with_mcp
  outbound_with_mcp serving_with_mcp : state.

(** One step of a run: the primitives are unfolded, the binds are reduced and
    the projections of the state are pushed through its changes. *)
Ltac run_M :=
  unfold getenv, getenv_default, py_int, logger_info, logger_warning,
    logger_error, logger, FastMCP_new, mcp_tool, streamable_http_app,
    uvicorn_run, get_active_api_key,
    mbind, mret, M_bind, M_ret, raise, ask, get, modify;
  autorewrite with state.

(** C6.  When [SERVER_ADDRESS] is absent from the environment, the module-level
    code raises before the server object is created (the state is left as it
    was), so running the script raises too and nothing is served.  The error is
    the [ValueError] of the address check, unless [PORT] is not an integer, in
    which case [int] has raised already. *)
Theorem C6_refuses_to_start_without_server_address env st :
  environ env !! "SERVER_ADDRESS" = None →
  ∃ e,
    module_init env st = (Raise e, st) ∧
    script env st = (Raise e, st) ∧
    mcp (final (script env st)) = mcp st ∧
    serving (final (script env st)) = serving st ∧
    (is_Some (int_of_str env (default "8000" (environ env !! "PORT"))) →
     e = ValueError "SERVER_ADDRESS required for payment protocol").
Proof.
  intros Haddr.
  assert (Hinit : ∃ e, module_init env st = (Raise e, st) ∧
     (is_Some (int_of_str env (default "8000" (environ env !! "PORT"))) →
      e = ValueError "SERVER_ADDRESS required for payment protocol")).
  { unfold module_init. run_M. rewrite Haddr.
    destruct (int_of_str env _) as [n|]; simpl.
    - eauto.
    - eexists; split; [done|]. by intros [? ?]. }
  destruct Hinit as (e & Hinit & He). exists e.
  assert (Hscript : script env st = (Raise e, st)).
  { unfold script. by rewrite (run_bind_raise _ _ _ _ _ _ Hinit). }
  rewrite Hscript. done.
Qed.



(** ** The application the code builds *)

Lemma module_init_ok env st cfg st1 :
  module_init env st = (Ok cfg, st1) →
  mcp st1 = Some (mkFastMCP "test-newsapi-mcp MCP Server" "0.0.0.0"
                            [search_everything_tool]) ∧
  API_KEY cfg = environ env !! "TEST_NEWSAPI_MCP_API_KEY" ∧
  environ env !! "SERVER_ADDRESS" = Some (SERVER_ADDRESS cfg) ∧
  outbound st1 = outbound st ∧ serving st1 = serving st.
Proof.
  unfold module_init. run_M.
  destruct (int_of_str env _) as [n|]; [|done].
  destruct (environ env !! "SERVER_ADDRESS") as [[|a addr]|]; simpl; try done.
  destruct (truthy (environ env !! "TEST_NEWSAPI_MCP_API_KEY")); simpl;
    intros [= <- <-]; done.
Qed.

Lemma create_app_ok env st cfg srv app st' :
  mcp st = Some srv →
  create_app_with_middleware cfg env st = (Ok app, st') →
  ∃ d,
    app = mkApp [D402PaymentMiddleware d; cors_allow_all]
                [mkRoute "/mcp" ["GET"; "POST"; "DELETE"] mcp_endpoint;
                 mkRoute "/health" ["GET"] health_check_endpoint] ∧
    tool_payment_configs d = extract_payment_configs_from_mcp srv (SERVER_ADDRESS cfg) ∧
    internal_api_key d = API_KEY cfg ∧
    outbound st' = outbound st ∧ serving st' = serving st.
Proof.
  intros Hmcp. unfold create_app_with_middleware. run_M. rewrite Hmcp.
  destruct (negb (truthy (or_else _ _)) && negb (bool_decide _)); [done|].
  destruct (truthy (or_else _ _)); simpl.
  - destruct (contains _ _ || contains _ _ || contains _ _); simpl;
      intros [= <- <-]; eexists; split_and!; done.
  - intros [= <- <-]; eexists; split_and!; done.
Qed.

Lemma built_app env st cfg st1 app st2 :
  module_init env st = (Ok cfg, st1) →
  create_app_with_middleware cfg env st1 = (Ok app, st2) →
  ∃ d,
    app = mkApp [D402PaymentMiddleware d; cors_allow_all]
                [mkRoute "/mcp" ["GET"; "POST"; "DELETE"] mcp_endpoint;
                 mkRoute "/health" ["GET"] health_check_endpoint] ∧
    tool_payment_configs d !! "search_everything" =
      Some (mkPaymentConfig search_everything_price (SERVER_ADDRESS cfg)) ∧
    internal_api_key d = API_KEY cfg.
Proof.
  intros Hinit Happ.
  destruct (module_init_ok _ _ _ _ Hinit) as (Hmcp & _).
  destruct (create_app_ok _ _ _ _ _ _ Hmcp Happ) as (d & -> & Hcfg & Hkey & _).
  exists d. split_and!; try done. rewrite Hcfg.
  unfold extract_payment_configs_from_mcp. simpl. by rewrite lookup_insert_eq.
Qed.

Lemma run_health_check req env st :
  health_check req env st =
  (Ok (mkJSONResponse 200
         (JObj [ ("status", JStr "healthy");
                 ("service", JStr "test-newsapi-mcp-mcp-server");
                 ("timestamp", JStr (now_isoformat env (clock_reads st))) ])),
   ticked st).
Proof. reflexivity. Qed.


(** C7.  On the application the code builds, a GET of [/health] is answered by
    [health_check], whatever credential or payment proof the request carries:
    status 200, never the payment-required answer, with a body of exactly the
    fields [status] (["healthy"]), [service] and [timestamp]; no outbound call
    is made. *)
Theorem C7_health_never_gated env st cfg st1 app st2 req st3 :
  module_init env st = (Ok cfg, st1) →
  create_app_with_middleware cfg env st1 = (Ok app, st2) →
  http_method req = "GET" → http_path req = "/health" →
  ∃ timestamp,
    let body := [ ("status", JStr "healthy");
                  ("service", JStr "test-newsapi-mcp-mcp-server");
                  ("timestamp", JStr timestamp) ] in
    result (health_check req env st3) = Ok (mkJSONResponse 200 (JObj body)) ∧
    result (handle app req env st3) = Ok (RouteResult (mkJSONResponse 200 (JObj body))) ∧
    http_status (RouteResult (mkJSONResponse 200 (JObj body))) = 200%Z ∧
    keys body = ["status"; "service"; "timestamp"] ∧
    outbound (final (handle app req env st3)) = outbound st3.
Proof.
  intros Hinit Happ Hm Hp.
  destruct (built_app _ _ _ _ _ _ Hinit Happ) as (d & -> & _).
  exists (now_isoformat env (clock_reads st3)). cbv zeta.
  unfold handle, find_route. rewrite Hm, Hp. simpl.
  done.
Qed.

(** A caller presenting the server's own key is admitted by the gate: the call
    reaches the tool. *)
Lemma handle_own_key_dispatches env st cfg st1 app st2 req st3 key :
  module_init env st = (Ok cfg, st1) →
  create_app_with_middleware cfg env st1 = (Ok app, st2) →
  http_method req = "POST" → http_path req = "/mcp" →
  call_tool req = "search_everything" →
  caller_api_key req = Some key → API_KEY cfg = Some key →
  handle app req env st3 = dispatch req env st3.
Proof.
  intros Hinit Happ Hm Hp Ht Hkey Hown.
  destruct (built_app _ _ _ _ _ _ Hinit Happ) as (d & -> & Hprice & Hd).
  unfold handle, find_route. rewrite Hm, Hp. simpl.
  rewrite Ht, Hprice. unfold evaluate, mbind, M_bind, ask.
  rewrite Hkey, Hd, Hown, bool_decide_eq_true_2 by done. done.
Qed.

(** ** The properties on a concrete world *)

Import Demo.

(** C1 as the specification states it fails: in a world whose upstream answers
    every call, a call that provides none of [q], [sources] and [domains] is
    not rejected; the request is sent and the upstream answer is returned. *)
Lemma C1_counterexample :
  let kwargs : gmap string pyval := ∅ in
  let run := search_everything no_key kwargs testing st0 in
  kwargs !! "q" = None ∧ kwargs !! "sources" = None ∧ kwargs !! "domains" = None ∧
  outbound st0 = [] ∧
  outbound (final run) ≠ [] ∧
  length (outbound (final run)) = 1%nat ∧
  result run = Ok articles.
Proof. vm_compute. split_and!; done. Qed.

Lemma C1_witness :
  ∃ req,
    outbound (final (search_everything no_key ∅ testing st0)) = outbound st0 ++ [req] ∧
    req_method req = "GET" ∧
    req_params req !! "q" = Some PNone ∧
    req_params req !! "sources" = Some PNone ∧
    req_params req !! "domains" = Some PNone.
Proof.
  apply (C1_no_validation_before_outbound testing st0 no_key ∅); reflexivity.
Defined.

Lemma C2_witness :
  result (search_everything no_key ∅ (world vars_testing (TimedOut "timed out")) st0) =
    Ok (JObj [("error", JStr "timed out"); ("endpoint", JStr "/everything")]) ∧
  result (search_everything no_key ∅
            (world vars_testing (replies 404 "Not Found" (inr articles))) st0) =
    Ok (JObj [ ("error",
                JStr "404 Client Error: Not Found for url: https://newsapi.org/v2/everything");
               ("endpoint", JStr "/everything") ]).
Proof.
  split.
  - destruct (C2_failures_returned_as_data
                (world vars_testing (TimedOut "timed out")) st0 no_key ∅)
      as (req & _ & _ & _ & Htimeout & _).
    apply Htimeout. reflexivity.
  - destruct (C2_failures_returned_as_data
                (world vars_testing (replies 404 "Not Found" (inr articles)))
                st0 no_key ∅)
      as (req & _ & _ & _ & _ & Hstatus).
    apply (Hstatus (mkResponse 404 "Not Found" everything_url (inr articles)));
      [reflexivity|split; reflexivity || discriminate].
Defined.

(** C2 as the specification states it fails for a status that is neither a
    success nor an error for the HTTP client: a reply 300 whose body decodes
    is returned as if it were a success, not as a failure value. *)
Lemma C2_counterexample :
  let reply := mkResponse 300 "Multiple Choices" everything_url (inr articles) in
  let env := world vars_testing (Replied reply) in
  let run := search_everything no_key ∅ env st0 in
  (∀ req, upstream env (outbound st0) req = Replied reply) ∧
  ¬ (200 ≤ status_code reply < 300)%Z ∧
  result run = Ok articles ∧
  (∀ msg, articles ≠ JObj [("error", JStr msg); ("endpoint", JStr "/everything")]).
Proof.
  split_and!.
  - done.
  - cbn. lia.
  - vm_compute. reflexivity.
  - intros msg H. discriminate H.
Qed.

Lemma C3_witness :
  result (search_everything with_key {[ "q" := PStr "ai" ]} testing st0) = Ok articles.
Proof.
  destruct (C3_search_ai_defaults_passthrough testing st0 with_key)
    as (req & _ & _ & _ & _ & _ & _ & _ & _ & Hpass).
  apply (Hpass (mkResponse 200 "OK" everything_url (inr articles)) articles);
    reflexivity.
Defined.


Lemma C6_witness :
  environ unconfigured !! "SERVER_ADDRESS" = None ∧
  ∃ e,
    module_init unconfigured st0 = (Raise e, st0) ∧
    script unconfigured st0 = (Raise e, st0) ∧
    mcp (final (script unconfigured st0)) = mcp st0 ∧
    serving (final (script unconfigured st0)) = serving st0 ∧
    (is_Some (int_of_str unconfigured (default "8000" (environ unconfigured !! "PORT"))) →
     e = ValueError "SERVER_ADDRESS required for payment protocol").
Proof.
  split; [reflexivity|].
  apply (C6_refuses_to_start_without_server_address unconfigured st0). reflexivity.
Defined.

Lemma C7_witness :
  ∃ timestamp,
    let body := [ ("status", JStr "healthy");
                  ("service", JStr "test-newsapi-mcp-mcp-server");
                  ("timestamp", JStr timestamp) ] in
    result (health_check anonymous_health testing st0)
      = Ok (mkJSONResponse 200 (JObj body)) ∧
    result (handle (app_of testing) anonymous_health testing st0)
      = Ok (RouteResult (mkJSONResponse 200 (JObj body))) ∧
    http_status (RouteResult (mkJSONResponse 200 (JObj body))) = 200%Z ∧
    keys body = ["status"; "service"; "timestamp"] ∧
    outbound (final (handle (app_of testing) anonymous_health testing st0)) = outbound st0.
Proof.
  apply (C7_health_never_gated
           testing st0 cfg0 (initialised testing) (app_of testing)
           (final (built testing)) anonymous_health st0).
  - vm_compute. reflexivity.
  - vm_compute. reflexivity.
  - reflexivity.
  - reflexivity.
Defined.


Lemma C10_witness :
  result (search_everything no_key ∅
            (world vars_testing (replies 200 "OK" (inl not_json))) st0) =
    Ok (JObj [ ("error", JStr "Expecting value: line 1 column 1 (char 0)");
               ("endpoint", JStr "/everything") ]).
Proof.
  apply (proj2 (C10_exception_returns_error_dict
                  (world vars_testing (replies 200 "OK" (inl not_json))) st0 no_key ∅)
               (mkResponse 200 "OK" everything_url (inl not_json)) not_json);
    reflexivity.
Defined.

(** * Further properties of the code *)

(** ** The tool *)

(** X1.  The envelope of the outbound call is fixed: whatever the arguments, the
    request is a GET of the [/v2/everything] endpoint with a timeout of 30
    seconds; it carries the bearer credential as its only header when the
    active key is a non-empty string, and no header at all when the key is
    [None] or empty. *)
Theorem search_everything_envelope env st context (kwargs : gmap string pyval) :
  ∃ req,
    outbound (final (search_everything context kwargs env st)) = outbound st ++ [req] ∧
    req_method req = "GET" ∧
    req_url req = "https://newsapi.org/v2/everything" ∧
    req_timeout req = 30%Z ∧
    match active_api_key env context with
    | Some (String a key) =>
        req_headers req = {[ "Authorization" := "Bearer " +:+ String a key ]}
    | _ => req_headers req = ∅
    end.
Proof.
  exists (request_of env context kwargs).
  split; [apply search_everything_outbound|].
  split_and!; try done.
  unfold request_of, search_everything_headers; cbn [req_headers].
  by destruct (active_api_key env context) as [[|a key]|].
Qed.



(** X3.  A reply to the request sent that the HTTP client does not count as an
    error (any status outside 400–599, a redirection status included) is
    handled by its body alone: the decoded body is returned unchanged, and a
    body that does not decode yields the failure dictionary. *)
Theorem search_everything_reply_not_error env st context kwargs :
  let run := search_everything context kwargs env st in
  ∃ req,
    outbound (final run) = outbound st ++ [req] ∧
    ∀ r, upstream env (outbound st) req = Replied r →
         (status_code r < 400 ∨ 600 ≤ status_code r)%Z →
         result run =
           match decoded r with
           | inr v => Ok v
           | inl e => Ok (JObj [("error", JStr (str e)); ("endpoint", JStr "/everything")])
           end.
Proof.
  intros run. exists (request_of env context kwargs). unfold run.
  split; [apply search_everything_outbound|].
  intros r Hnet Hcode.
  assert (Hok : ok r = true).
  { unfold ok. apply negb_true_iff, andb_false_iff.
    destruct Hcode; [left; apply Z.leb_gt | right; apply Z.ltb_ge]; lia. }
  rewrite search_everything_result, try_of_run, Hnet, Hok.
  by destruct (decoded r).
Qed.

(** ** The liveness route *)

(** X4.  Every health check reads the clock anew: two checks in a row report the
    two successive readings, and neither logs, calls upstream or touches the
    server. *)
Theorem health_check_reads_clock_each_time req1 req2 env st :
  let first := health_check req1 env st in
  let second := health_check req2 env (final first) in
  (∃ body, result first = Ok (mkJSONResponse 200 (JObj body)) ∧
           body !! 2%nat = Some ("timestamp", JStr (now_isoformat env (clock_reads st)))) ∧
  (∃ body, result second = Ok (mkJSONResponse 200 (JObj body)) ∧
           body !! 2%nat = Some ("timestamp", JStr (now_isoformat env (S (clock_reads st))))) ∧
  clock_reads (final second) = S (S (clock_reads st)) ∧
  outbound (final second) = outbound st ∧
  logged (final second) = logged st ∧
  mcp (final second) = mcp st ∧
  serving (final second) = serving st.
Proof.
  intros first second. unfold second, first.
  rewrite !run_health_check. cbn [final result fst snd].
  split_and!; try done; eexists; split; done.
Qed.

(** ** Start-up: the module-level code *)

Lemma truthy_spec (o : option string) :
  truthy o = true ↔ ∃ s, o = Some s ∧ s ≠ EmptyString.
Proof.
  split.
  - destruct o as [[|a s]|]; try done. eauto.
  - by intros ([|a s] & -> & Hs).
Qed.

Lemma truthy_or_else (a b : option string) :
  truthy (or_else a b) = truthy a || truthy b.
Proof. unfold or_else. by destruct (truthy a) eqn:Ha. Qed.



Lemma module_init_ok_iff env st :
  (∃ cfg st1, module_init env st = (Ok cfg, st1)) ↔
  is_Some (int_of_str env (default "8000" (environ env !! "PORT"))) ∧
  truthy (environ env !! "SERVER_ADDRESS") = true.
Proof.
  unfold module_init. run_M.
  destruct (int_of_str env _) as [n|]; cbn beta iota.
  - destruct (truthy (environ env !! "SERVER_ADDRESS")); simpl.
    + split; [eauto|intros _].
      destruct (truthy (environ env !! "TEST_NEWSAPI_MCP_API_KEY")); simpl; eauto.
    + split; [by intros (? & ? & ?)|by intros [_ ?]].
  - split; [by intros (? & ? & ?)|by intros [[? ?] _]].
Qed.

Lemma run_import_module check env st :
  import_module check env st =
  match check (default "INFO" (environ env !! "LOG_LEVEL")) with
  | Some e => (Raise e, st)
  | None => module_init env st
  end.
Proof.
  unfold import_module, logging_basicConfig, getenv_default, ask, raise,
    mbind, mret, M_bind, M_ret.
  destruct (check _) as [e|]; [done|].
  by destruct (module_init env st) as [[cfg|e] st1].
Qed.

(** X5.  Importing the module succeeds exactly when the [logging] module
    accepts [LOG_LEVEL] (["INFO"] when unset), [PORT] (["8000"] when unset) is
    an integer and [SERVER_ADDRESS] is set to a non-empty string. *)
Theorem import_module_succeeds_iff check env st :
  (∃ cfg st1, import_module check env st = (Ok cfg, st1)) ↔
  check (default "INFO" (environ env !! "LOG_LEVEL")) = None ∧
  is_Some (int_of_str env (default "8000" (environ env !! "PORT"))) ∧
  ∃ addr, environ env !! "SERVER_ADDRESS" = Some addr ∧ addr ≠ EmptyString.
Proof.
  rewrite <- truthy_spec, <- (module_init_ok_iff env st), run_import_module.
  destruct (check _) as [e|].
  - split; [by intros (? & ? & ?)|by intros [? _]].
  - split; [by intros ?|by intros [_ ?]].
Qed.

(** X6.  What a successful initialisation leaves: the configuration holds
    [STAGE] (["MAINNET"] when unset, the upper-cased value when it is set to
    ASCII text), the integer value of [PORT] (of ["8000"] when unset), the
    address, and the key as set (or [None]); the server object exists under
    its name and host with exactly one tool, [search_everything], at its
    declared price; no outbound call has been made and nothing is served
    yet. *)
Theorem module_init_postcondition env st cfg st1 :
  module_init env st = (Ok cfg, st1) →
  (environ env !! "STAGE" = None → STAGE cfg = "MAINNET") ∧
  (∀ v, environ env !! "STAGE" = Some v →
        Forall (λ c, nat_of_ascii c < 128)%nat (list_ascii_of_string v) →
        STAGE cfg = upper v) ∧
  int_of_str env (default "8000" (environ env !! "PORT")) = Some (PORT cfg) ∧
  environ env !! "SERVER_ADDRESS" = Some (SERVER_ADDRESS cfg) ∧
  SERVER_ADDRESS cfg ≠ EmptyString ∧
  API_KEY cfg = environ env !! "TEST_NEWSAPI_MCP_API_KEY" ∧
  mcp st1 = Some (mkFastMCP "test-newsapi-mcp MCP Server" "0.0.0.0"
                            [mkTool "search_everything" search_everything_price
                               "Search through millions of articles. NewsAPI requi"]) ∧
  outbound st1 = outbound st ∧
  serving st1 = serving st.
Proof.
  unfold module_init. run_M.
  destruct (int_of_str env _) as [n|]; [|done].
  destruct (environ env !! "SERVER_ADDRESS") as [[|a addr]|]; simpl; try done.
  destruct (truthy (environ env !! "TEST_NEWSAPI_MCP_API_KEY")); simpl;
    intros [= <- <-]; cbn [STAGE]; split_and!; try done.
  - by intros ->.
  - by intros v -> _.
  - by intros ->.
  - by intros v -> _.
Qed.

(** X7.  An address that is set but empty is refused like a missing one. *)
Theorem module_init_refuses_empty_address env st :
  environ env !! "SERVER_ADDRESS" = Some EmptyString →
  is_Some (int_of_str env (default "8000" (environ env !! "PORT"))) →
  module_init env st =
    (Raise (ValueError "SERVER_ADDRESS required for payment protocol"), st).
Proof.
  intros Haddr [n Hn]. unfold module_init. run_M. by rewrite Hn, Haddr.
Qed.

(** X8.  A [PORT] that is not an integer stops the initialisation with a
    [ValueError], that of [int], before the address is looked at and whether
    or not it is set; the state is left as it was.  The import as a whole
    then fails too, whatever the set-up of logging does. *)
Theorem module_init_refuses_bad_port env st port :
  environ env !! "PORT" = Some port →
  int_of_str env port = None →
  (∃ e, exc_class e = "ValueError" ∧ module_init env st = (Raise e, st)) ∧
  (∀ check, ∃ e, import_module check env st = (Raise e, st)).
Proof.
  intros Hport Hint.
  assert (Hinit : ∃ e, exc_class e = "ValueError" ∧ module_init env st = (Raise e, st)).
  { unfold module_init. run_M. rewrite Hport; simpl; rewrite Hint.
    eexists. split; [|reflexivity]. reflexivity. }
  split; [done|].
  intros check. rewrite run_import_module.
  destruct (check _) as [e|]; [eauto|].
  destruct Hinit as (e & _ & ->). eauto.
Qed.


(** ** Start-up: the application *)

Lemma facilitator_configured_iff env :
  (∃ url, url ≠ EmptyString ∧
          (environ env !! "FACILITATOR_URL" = Some url ∨
           environ env !! "D402_FACILITATOR_URL" = Some url)) ↔
  truthy (or_else (environ env !! "FACILITATOR_URL")
                  (environ env !! "D402_FACILITATOR_URL")) = true.
Proof.
  rewrite truthy_or_else, orb_true_iff, !truthy_spec. split.
  - intros (url & Hne & [H|H]); eauto.
  - intros [(url & H & Hne)|(url & H & Hne)]; eauto.
Qed.

Lemma create_app_ok_iff env st cfg srv :
  mcp st = Some srv →
  (∃ app st', create_app_with_middleware cfg env st = (Ok app, st')) ↔
  truthy (or_else (environ env !! "FACILITATOR_URL")
                  (environ env !! "D402_FACILITATOR_URL")) = true ∨
  lower (default "false" (environ env !! "D402_TESTING_MODE")) = "true".
Proof.
  intros Hmcp.
  unfold create_app_with_middleware. run_M. rewrite Hmcp.
  destruct (truthy (or_else _ _)) eqn:Hf; simpl.
  - split; [by left|intros _].
    destruct (contains _ _ || contains _ _ || contains _ _); simpl; eauto.
  - case_bool_decide as Hmode; simpl.
    + split; [by right|eauto].
    + split; [by intros (? & ? & ?)|by intros [?|?]].
Qed.

(** X10.  With the server object in place, [create_app_with_middleware] succeeds
    exactly when a facilitator URL is configured (one of [FACILITATOR_URL],
    [D402_FACILITATOR_URL] is a non-empty string) or testing mode is enabled
    (the lower-cased [D402_TESTING_MODE] is ["true"]). *)
Theorem create_app_succeeds_iff env st cfg srv :
  mcp st = Some srv →
  (∃ app st', create_app_with_middleware cfg env st = (Ok app, st')) ↔
  (∃ url, url ≠ EmptyString ∧
          (environ env !! "FACILITATOR_URL" = Some url ∨
           environ env !! "D402_FACILITATOR_URL" = Some url)) ∨
  lower (default "false" (environ env !! "D402_TESTING_MODE")) = "true".
Proof.
  intros Hmcp. rewrite facilitator_configured_iff.
  by apply (create_app_ok_iff env st cfg srv).
Qed.

(** X11.  How the payment middleware is configured.  The application carries a
    [D402PaymentMiddleware] holding the address and the key of the
    configuration, with authentication required, the testing-mode flag as
    read, the facilitator key of [D402_FACILITATOR_API_KEY] and the server's
    name.  The facilitator URL is [FACILITATOR_URL] when that is a non-empty
    string, and [D402_FACILITATOR_URL] otherwise. *)
Theorem create_app_payment_middleware env st cfg srv app st' :
  mcp st = Some srv →
  create_app_with_middleware cfg env st = (Ok app, st') →
  ∃ d,
    D402PaymentMiddleware d ∈ user_middleware app ∧
    server_address d = SERVER_ADDRESS cfg ∧
    internal_api_key d = API_KEY cfg ∧
    requires_auth d = true ∧
    d402_testing_mode d =
      bool_decide (lower (default "false" (environ env !! "D402_TESTING_MODE")) = "true") ∧
    d402_facilitator_url d =
      match environ env !! "FACILITATOR_URL" with
      | Some (String a url) => Some (String a url)
      | _ => environ env !! "D402_FACILITATOR_URL"
      end ∧
    facilitator_api_key d = environ env !! "D402_FACILITATOR_API_KEY" ∧
    server_name d = "test-newsapi-mcp-mcp-server".
Proof.
  intros Hmcp. unfold create_app_with_middleware. run_M. rewrite Hmcp.
  assert (Hor : or_else (environ env !! "FACILITATOR_URL")
                        (environ env !! "D402_FACILITATOR_URL") =
                match environ env !! "FACILITATOR_URL" with
                | Some (String a url) => Some (String a url)
                | _ => environ env !! "D402_FACILITATOR_URL"
                end).
  { by destruct (environ env !! "FACILITATOR_URL") as [[|a url]|]. }
  rewrite <- Hor.
  destruct (negb (truthy (or_else _ _)) && negb (bool_decide _)); [done|].
  destruct (truthy (or_else _ _)); simpl.
  - destruct (contains _ _ || contains _ _ || contains _ _); simpl;
      intros [= <- <-]; eexists; (split; [apply list_elem_of_here|]); done.
  - intros [= <- <-]; eexists; (split; [apply list_elem_of_here|]); done.
Qed.

(** X12.  The application gets the allow-all cross-origin policy, with
    credentials, beside the payment middleware (two middlewares in all), and
    a route at [/health] that accepts GET and is bound to [health_check];
    no other endpoint is registered at that path. *)
Theorem create_app_cors_and_health env st cfg srv app st' :
  mcp st = Some srv →
  create_app_with_middleware cfg env st = (Ok app, st') →
  CORSMiddleware (mkCORS ["*"] true ["*"] ["*"]) ∈ user_middleware app ∧
  length (user_middleware app) = 2%nat ∧
  (∃ r, r ∈ routes app ∧ route_path r = "/health" ∧ "GET" ∈ route_methods r ∧
        route_endpoint r = health_check_endpoint) ∧
  (∀ r, r ∈ routes app → route_path r = "/health" →
        route_endpoint r = health_check_endpoint).
Proof.
  intros Hmcp Happ.
  destruct (create_app_ok _ _ _ _ _ _ Hmcp Happ) as (d & -> & _).
  split_and!; try done.
  - apply list_elem_of_further, list_elem_of_here.
  - eexists. split; [apply list_elem_of_further, list_elem_of_here|].
    split_and!; try done. apply list_elem_of_here.
  - intros r Hr Hpath. cbn [routes] in Hr.
    apply elem_of_cons in Hr as [->|Hr]; [done|].
    by apply list_elem_of_singleton in Hr as ->.
Qed.

(** X13.  [NETWORK] and [MCP_OPERATOR_PRIVATE_KEY] are read and logged, nothing
    more: two environments that agree on every other variable give the same
    outcome, error or application. *)
Theorem create_app_ignores_network_and_operator_key env env' st cfg :
  (∀ name, name ≠ "NETWORK" → name ≠ "MCP_OPERATOR_PRIVATE_KEY" →
           environ env !! name = environ env' !! name) →
  result (create_app_with_middleware cfg env st) =
  result (create_app_with_middleware cfg env' st).
Proof.
  intros Hsame.
  unfold create_app_with_middleware. run_M.
  destruct (mcp st) as [srv|]; [|done].
  pose proof (Hsame "FACILITATOR_URL" ltac:(done) ltac:(done)) as H1.
  pose proof (Hsame "D402_FACILITATOR_URL" ltac:(done) ltac:(done)) as H2.
  pose proof (Hsame "D402_TESTING_MODE" ltac:(done) ltac:(done)) as H3.
  pose proof (Hsame "D402_FACILITATOR_API_KEY" ltac:(done) ltac:(done)) as H4.
  rewrite <- H1, <- H2, <- H3.
  destruct (negb (truthy (or_else _ _)) && negb (bool_decide _)); [done|].
  destruct (truthy (or_else _ _)); simpl.
  - destruct (contains _ _ || contains _ _ || contains _ _); simpl;
      by rewrite H4.
  - by rewrite H4.
Qed.

(** ** Start-up: the script as a whole *)

Lemma module_init_frame env st :
  outbound (final (module_init env st)) = outbound st ∧
  (∀ e, result (module_init env st) = Raise e → final (module_init env st) = st) ∧
  serving (final (module_init env st)) = serving st.
Proof.
  unfold module_init. run_M.
  destruct (int_of_str env _) as [n|]; [|done].
  destruct (truthy (environ env !! "SERVER_ADDRESS")); simpl; [|done].
  by destruct (truthy (environ env !! "TEST_NEWSAPI_MCP_API_KEY")).
Qed.

Lemma create_app_frame env st cfg :
  outbound (final (create_app_with_middleware cfg env st)) = outbound st ∧
  serving (final (create_app_with_middleware cfg env st)) = serving st.
Proof.
  unfold create_app_with_middleware. run_M.
  destruct (mcp st) as [srv|]; [|done].
  destruct (negb (truthy (or_else _ _)) && negb (bool_decide _)); [done|].
  destruct (truthy (or_else _ _)); simpl; [|done].
  by destruct (contains _ _ || contains _ _ || contains _ _).
Qed.

(** [main] logs its banner, builds the application and hands it to uvicorn
    with the configured port. *)
Lemma run_main cfg env st :
  ∃ st0,
    mcp st0 = mcp st ∧ outbound st0 = outbound st ∧ serving st0 = serving st ∧
    main cfg env st =
      match create_app_with_middleware cfg env st0 with
      | (Ok app, st') => (Ok tt, with_serving st' app (PORT cfg))
      | (Raise e, st') => (Raise e, st')
      end.
Proof.
  unfold main, uvicorn_run, logger_info, logger, modify, mbind, M_bind.
  eexists. split_and!; [| | |reflexivity]; done.
Qed.

Lemma run_script env st :
  script env st =
  match module_init env st with
  | (Ok cfg, st1) => main cfg env st1
  | (Raise e, st1) => (Raise e, st1)
  end.
Proof. reflexivity. Qed.

Lemma script_ok_iff env st :
  (∃ st', script env st = (Ok tt, st')) ↔
  (is_Some (int_of_str env (default "8000" (environ env !! "PORT"))) ∧
   truthy (environ env !! "SERVER_ADDRESS") = true) ∧
  (truthy (or_else (environ env !! "FACILITATOR_URL")
                   (environ env !! "D402_FACILITATOR_URL")) = true ∨
   lower (default "false" (environ env !! "D402_TESTING_MODE")) = "true").
Proof.
  rewrite <- (module_init_ok_iff env st), run_script.
  destruct (module_init env st) as [[cfg|e] st1] eqn:Hinit.
  - destruct (module_init_ok _ _ _ _ Hinit) as (Hmcp & _).
    destruct (run_main cfg env st1) as (st0 & Hmcp0 & _ & _ & ->).
    rewrite Hmcp in Hmcp0.
    rewrite <- (create_app_ok_iff env st0 cfg _ Hmcp0).
    destruct (create_app_with_middleware cfg env st0) as [[app|e] st'].
    + split; [intros _|intros _]; eauto 6.
    + split; [by intros [? ?]|by intros (_ & ? & ? & ?)].
  - split; [by intros [? ?]|by intros ((? & ? & ?) & _)].
Qed.

(** With nothing handed to uvicorn before, something is handed to it by the
    script exactly when the script comes to its end. *)
Lemma script_reaches_uvicorn_iff env st :
  serving st = None →
  (∃ app port, serving (final (script env st)) = Some (app, port)) ↔
  (∃ st', script env st = (Ok tt, st')).
Proof.
  intros Hnone. rewrite run_script.
  destruct (module_init_frame env st) as (_ & _ & Hserv).
  destruct (module_init env st) as [[cfg|e] st1]; cbn [final snd] in *.
  - destruct (run_main cfg env st1) as (st0 & _ & _ & Hserv0 & ->).
    destruct (create_app_frame env st0 cfg) as (_ & Hserv').
    destruct (create_app_with_middleware cfg env st0) as [[app|e] st''];
      cbn [final snd] in *.
    + split; [eauto|intros _; by eexists _, _].
    + split; [|by intros [? ?]].
      intros (app & port & H). congruence.
  - split; [|by intros [? ?]].
    intros (app & port & H). congruence.
Qed.

(** X14.  Running the file comes to the call of [uvicorn.run], handing it the
    application and the port, exactly when the configuration is complete: the
    [logging] module accepts [LOG_LEVEL] (["INFO"] when unset), [PORT]
    (["8000"] when unset) is an integer, [SERVER_ADDRESS] is a non-empty
    string, and a facilitator URL is configured or testing mode is enabled. *)
Theorem run_file_reaches_uvicorn_iff check env st :
  serving st = None →
  (∃ app port, serving (final (run_file check env st)) = Some (app, port)) ↔
  check (default "INFO" (environ env !! "LOG_LEVEL")) = None ∧
  is_Some (int_of_str env (default "8000" (environ env !! "PORT"))) ∧
  (∃ addr, environ env !! "SERVER_ADDRESS" = Some addr ∧ addr ≠ EmptyString) ∧
  ((∃ url, url ≠ EmptyString ∧
           (environ env !! "FACILITATOR_URL" = Some url ∨
            environ env !! "D402_FACILITATOR_URL" = Some url)) ∨
   lower (default "false" (environ env !! "D402_TESTING_MODE")) = "true").
Proof.
  intros Hnone.
  assert (Hrun : run_file check env st =
                 match check (default "INFO" (environ env !! "LOG_LEVEL")) with
                 | Some e => (Raise e, st)
                 | None => script env st
                 end).
  { unfold run_file, script, mbind, M_bind.
    rewrite run_import_module. by destruct (check _). }
  rewrite Hrun, facilitator_configured_iff, <- truthy_spec.
  destruct (check _) as [e|]; cbn [final snd].
  - split; [|by intros [? _]].
    intros (app & port & H). congruence.
  - rewrite (script_reaches_uvicorn_iff env st Hnone), script_ok_iff.
    split; [intros [[? ?] ?]|intros (_ & ? & ? & ?)]; done.
Qed.

(** X15.  When the script succeeds, uvicorn has been given the application, with
    its [/health] route, and the integer value of [PORT] (8000 when [PORT] is
    unset and [int] reads ["8000"] so). *)
Theorem script_serves_on_port env st st' :
  script env st = (Ok tt, st') →
  ∃ app port,
    serving st' = Some (app, port) ∧
    int_of_str env (default "8000" (environ env !! "PORT")) = Some port ∧
    mkRoute "/health" ["GET"] health_check_endpoint ∈ routes app ∧
    (∃ d, D402PaymentMiddleware d ∈ user_middleware app).
Proof.
  rewrite run_script.
  destruct (module_init env st) as [[cfg|e] st1] eqn:Hinit; [|done].
  destruct (module_init_ok _ _ _ _ Hinit) as (Hmcp & _).
  assert (Hport : int_of_str env (default "8000" (environ env !! "PORT")) = Some (PORT cfg)).
  { revert Hinit. unfold module_init. run_M.
    destruct (int_of_str env _) as [n|]; [|done].
    destruct (truthy (environ env !! "SERVER_ADDRESS")); simpl; [|done].
    by destruct (truthy (environ env !! "TEST_NEWSAPI_MCP_API_KEY")); simpl;
      intros [= <- <-]. }
  destruct (run_main cfg env st1) as (st0 & Hmcp0 & _ & _ & ->).
  rewrite Hmcp in Hmcp0.
  destruct (create_app_with_middleware cfg env st0) as [[app|e] st''] eqn:Happ; [|done].
  intros [= <-].
  destruct (create_app_ok _ _ _ _ _ _ Hmcp0 Happ) as (d & -> & _).
  eexists _, (PORT cfg). split_and!; try done.
  - apply list_elem_of_further, list_elem_of_here.
  - exists d. apply list_elem_of_here.
Qed.

(** X16.  Starting up never calls the upstream API, whatever the environment; and a
    start-up that fails leaves nothing served. *)
Theorem script_makes_no_outbound_call env st :
  outbound (final (script env st)) = outbound st ∧
  (∀ e, result (script env st) = Raise e →
        serving (final (script env st)) = serving st).
Proof.
  rewrite run_script.
  destruct (module_init_frame env st) as (Hout & _ & Hserv).
  destruct (module_init env st) as [[cfg|e] st1]; [|done].
  cbn [final snd] in Hout, Hserv.
  destruct (run_main cfg env st1) as (st0 & _ & Hout0 & Hserv0 & ->).
  destruct (create_app_frame env st0 cfg) as (Hout' & Hserv').
  destruct (create_app_with_middleware cfg env st0) as [[app|e] st''];
    cbn [final result fst snd] in *.
  - split; [|done]. cbn [with_serving outbound]. congruence.
  - split; [congruence|intros ? _; congruence].
Qed.

(** ** Testing mode is read without regard to letter case *)

Lemma lower_ascii_t c : lower_ascii c = "t"%char ↔ c = "t"%char ∨ c = "T"%char.
Proof.
  destruct c as [[] [] [] [] [] [] [] []]; vm_compute;
    (split; [intros H; try discriminate H; auto
            |intros [H|H]; try discriminate H; reflexivity]).
Qed.

Lemma lower_ascii_r c : lower_ascii c = "r"%char ↔ c = "r"%char ∨ c = "R"%char.
Proof.
  destruct c as [[] [] [] [] [] [] [] []]; vm_compute;
    (split; [intros H; try discriminate H; auto
            |intros [H|H]; try discriminate H; reflexivity]).
Qed.

Lemma lower_ascii_u c : lower_ascii c = "u"%char ↔ c = "u"%char ∨ c = "U"%char.
Proof.
  destruct c as [[] [] [] [] [] [] [] []]; vm_compute;
    (split; [intros H; try discriminate H; auto
            |intros [H|H]; try discriminate H; reflexivity]).
Qed.

Lemma lower_ascii_e c : lower_ascii c = "e"%char ↔ c = "e"%char ∨ c = "E"%char.
Proof.
  destruct c as [[] [] [] [] [] [] [] []]; vm_compute;
    (split; [intros H; try discriminate H; auto
            |intros [H|H]; try discriminate H; reflexivity]).
Qed.

Lemma lower_is_true v :
  lower v = "true" ↔
  ∃ c1 c2 c3 c4,
    v = String c1 (String c2 (String c3 (String c4 EmptyString))) ∧
    (c1 = "t"%char ∨ c1 = "T"%char) ∧ (c2 = "r"%char ∨ c2 = "R"%char) ∧
    (c3 = "u"%char ∨ c3 = "U"%char) ∧ (c4 = "e"%char ∨ c4 = "E"%char).
Proof.
  split.
  - destruct v as [|c1 [|c2 [|c3 [|c4 [|c5 v]]]]]; try done.
    unfold lower; cbn [map_string]. intros [= H1 H2 H3 H4].
    exists c1, c2, c3, c4.
    rewrite <- lower_ascii_t, <- lower_ascii_r, <- lower_ascii_u, <- lower_ascii_e.
    done.
  - intros (c1 & c2 & c3 & c4 & -> & H1 & H2 & H3 & H4).
    apply lower_ascii_t in H1. apply lower_ascii_r in H2.
    apply lower_ascii_u in H3. apply lower_ascii_e in H4.
    unfold lower; cbn [map_string]. by rewrite H1, H2, H3, H4.
Qed.

(** X17.  Without a facilitator URL, the application is built exactly when
    [D402_TESTING_MODE] is set to the word true in any mix of upper and lower
    case; unset, or set to anything else (["1"], ["yes"], ...), start-up is
    refused. *)
Theorem testing_mode_any_letter_case env st cfg srv :
  mcp st = Some srv →
  environ env !! "FACILITATOR_URL" = None →
  environ env !! "D402_FACILITATOR_URL" = None →
  (∃ app st', create_app_with_middleware cfg env st = (Ok app, st')) ↔
  ∃ c1 c2 c3 c4,
    environ env !! "D402_TESTING_MODE" =
      Some (String c1 (String c2 (String c3 (String c4 EmptyString)))) ∧
    (c1 = "t"%char ∨ c1 = "T"%char) ∧ (c2 = "r"%char ∨ c2 = "R"%char) ∧
    (c3 = "u"%char ∨ c3 = "U"%char) ∧ (c4 = "e"%char ∨ c4 = "E"%char).
Proof.
  intros Hmcp Hf1 Hf2.
  rewrite (create_app_ok_iff env st cfg srv Hmcp), Hf1, Hf2, lower_is_true.
  split.
  - intros [?|(c1 & c2 & c3 & c4 & Hv & H)]; [done|].
    destruct (environ env !! "D402_TESTING_MODE") as [v|]; simpl in Hv.
    + subst v. by exists c1, c2, c3, c4.
    + destruct H as (H1 & _). by destruct H1; simplify_eq.
  - intros (c1 & c2 & c3 & c4 & -> & H). right. by exists c1, c2, c3, c4.
Qed.

(** ** The further properties on a concrete world *)


Lemma search_everything_reply_not_error_witness :
  result (search_everything no_key ∅
            (world vars_testing (replies 300 "Multiple Choices" (inr articles))) st0) =
    Ok articles.
Proof.
  destruct (search_everything_reply_not_error
              (world vars_testing (replies 300 "Multiple Choices" (inr articles)))
              st0 no_key ∅)
    as (req & _ & Hreply).
  apply (Hreply (mkResponse 300 "Multiple Choices" everything_url (inr articles))).
  - reflexivity.
  - left. reflexivity.
Defined.

Lemma module_init_postcondition_witness :
  STAGE cfg0 = "MAINNET" ∧ PORT cfg0 = 8000%Z ∧
  mcp (initialised testing) =
    Some (mkFastMCP "test-newsapi-mcp MCP Server" "0.0.0.0"
            [mkTool "search_everything" search_everything_price
               "Search through millions of articles. NewsAPI requi"]).
Proof.
  destruct (module_init_postcondition testing st0 cfg0 (initialised testing))
    as (Hstage & _ & _ & _ & _ & _ & Hmcp & _).
  - vm_compute. reflexivity.
  - split_and!; [apply Hstage; reflexivity|reflexivity|exact Hmcp].
Defined.

Lemma module_init_refuses_empty_address_witness :
  module_init (world {[ "SERVER_ADDRESS" := EmptyString ]} success) st0 =
    (Raise (ValueError "SERVER_ADDRESS required for payment protocol"), st0).
Proof.
  apply module_init_refuses_empty_address.
  - reflexivity.
  - exists 8000%Z. reflexivity.
Defined.

Lemma module_init_refuses_bad_port_witness :
  (∃ e, exc_class e = "ValueError" ∧
        module_init (world {[ "SERVER_ADDRESS" := "0xA11CE"; "PORT" := "http" ]} success)
                    st0 = (Raise e, st0)) ∧
  (∀ check, ∃ e,
     import_module check
       (world {[ "SERVER_ADDRESS" := "0xA11CE"; "PORT" := "http" ]} success) st0 =
       (Raise e, st0)).
Proof.
  apply (module_init_refuses_bad_port
           (world {[ "SERVER_ADDRESS" := "0xA11CE"; "PORT" := "http" ]} success)
           st0 "http"); reflexivity.
Defined.


Lemma create_app_succeeds_iff_witness :
  ∃ app st', create_app_with_middleware cfg0 testing (initialised testing) = (Ok app, st').
Proof.
  apply (create_app_succeeds_iff testing (initialised testing) cfg0
           (mkFastMCP "test-newsapi-mcp MCP Server" "0.0.0.0" [search_everything_tool])).
  - vm_compute. reflexivity.
  - right. vm_compute. reflexivity.
Defined.

Lemma create_app_payment_middleware_witness :
  ∃ d,
    D402PaymentMiddleware d ∈ user_middleware (app_of testing) ∧
    server_address d = "0xA11CE" ∧
    internal_api_key d = None ∧
    requires_auth d = true ∧
    d402_testing_mode d = true ∧
    d402_facilitator_url d = None ∧
    facilitator_api_key d = None ∧
    server_name d = "test-newsapi-mcp-mcp-server".
Proof.
  apply (create_app_payment_middleware testing (initialised testing) cfg0
           (mkFastMCP "test-newsapi-mcp MCP Server" "0.0.0.0" [search_everything_tool])
           (app_of testing) (final (built testing))).
  - vm_compute. reflexivity.
  - vm_compute. reflexivity.
Defined.

Lemma create_app_cors_and_health_witness :
  CORSMiddleware (mkCORS ["*"] true ["*"] ["*"]) ∈ user_middleware (app_of testing) ∧
  length (user_middleware (app_of testing)) = 2%nat ∧
  (∃ r, r ∈ routes (app_of testing) ∧ route_path r = "/health" ∧
        "GET" ∈ route_methods r ∧ route_endpoint r = health_check_endpoint) ∧
  (∀ r, r ∈ routes (app_of testing) → route_path r = "/health" →
        route_endpoint r = health_check_endpoint).
Proof.
  apply (create_app_cors_and_health testing (initialised testing) cfg0
           (mkFastMCP "test-newsapi-mcp MCP Server" "0.0.0.0" [search_everything_tool])
           (app_of testing) (final (built testing))).
  - vm_compute. reflexivity.
  - vm_compute. reflexivity.
Defined.

Lemma create_app_ignores_network_and_operator_key_witness :
  result (create_app_with_middleware cfg0 testing (initialised testing)) =
  result (create_app_with_middleware cfg0
            (world (<[ "NETWORK" := "mainnet" ]> vars_testing) success)
            (initialised testing)).
Proof.
  apply create_app_ignores_network_and_operator_key.
  intros name Hnet _. simpl. symmetry. apply lookup_insert_ne. congruence.
Defined.

Lemma script_serves_on_port_witness :
  ∃ app port,
    serving (final (script testing st0)) = Some (app, port) ∧
    int_of_str testing (default "8000" (environ testing !! "PORT")) = Some port ∧
    mkRoute "/health" ["GET"] health_check_endpoint ∈ routes app ∧
    (∃ d, D402PaymentMiddleware d ∈ user_middleware app).
Proof.
  apply (script_serves_on_port testing st0 (final (script testing st0))).
  vm_compute. reflexivity.
Defined.

Lemma testing_mode_any_letter_case_witness :
  ∃ app st',
    create_app_with_middleware cfg0
      (world {[ "SERVER_ADDRESS" := "0xA11CE"; "D402_TESTING_MODE" := "True" ]} success)
      (initialised testing) = (Ok app, st').
Proof.
  apply (testing_mode_any_letter_case
           (world {[ "SERVER_ADDRESS" := "0xA11CE"; "D402_TESTING_MODE" := "True" ]} success)
           (initialised testing) cfg0
           (mkFastMCP "test-newsapi-mcp MCP Server" "0.0.0.0" [search_everything_tool])).
  - vm_compute. reflexivity.
  - reflexivity.
  - reflexivity.
  - exists "T"%char, "r"%char, "u"%char, "e"%char.
    split; [reflexivity|]. split_and!; auto.
Defined.

Lemma run_file_reaches_uvicorn_iff_witness :
  (∃ app port, serving (final (run_file level_error testing st0)) = Some (app, port)) ∧
  ¬ (∃ app port,
       serving (final (run_file level_error
                         (world (<[ "LOG_LEVEL" := "bogus" ]> vars_testing) success)
                         st0)) = Some (app, port)).
Proof.
  split.
  - apply (run_file_reaches_uvicorn_iff level_error testing st0); [reflexivity|].
    split_and!.
    + reflexivity.
    + exists 8000%Z. reflexivity.
    + exists "0xA11CE". split; [reflexivity|discriminate].
    + right. reflexivity.
  - intros H.
    apply (run_file_reaches_uvicorn_iff level_error
             (world (<[ "LOG_LEVEL" := "bogus" ]> vars_testing) success) st0)
      in H as [Hlevel _]; [|reflexivity].
    vm_compute in Hlevel. discriminate Hlevel.
Defined.
